(** * populate.py: seeding a REST API from JSON fixture files

    A shallow embedding of [scripts/populate_data/populate.py] and the
    properties of its loader, publisher and driver.

    The script talks to three things outside itself: the file system
    ([os.path.exists], [open], [json.load]), the HTTP API ([requests.post])
    and the console ([print]).  They are modelled by a [World] (what is on
    disk, how the API answers) and by a trace of [Event]s that the script
    appends to in program order.  Python exceptions are not caught anywhere
    in the script, so a raised exception ends the run: the embedding threads
    them through an error monad. *)

From Stdlib Require Import ZArith String List SpecFloat.
From stdpp Require Import base option strings list gmap.

Local Open Scope string_scope.
Local Open Scope Z_scope.
Local Open Scope list_scope.

(** ** JSON values, as [json.load] builds them

    [json.load] yields [None], [bool], [int], [float], [str], [list] and
    [dict] values.  A [dict] keeps its keys in insertion order, so an object
    is an association list. *)

#[warnings="-register-all"]
Inductive json : Type :=
  | JNull
  | JBool (b : bool)
  | JInt (n : Z)
  | JFloat (x : spec_float)
  | JString (s : string)
  | JArray (items : list json)
  | JObject (fields : list (string * json)).

(** [isinstance(data, dict)]: the spec's Record. *)
Definition is_dict (data : json) : bool :=
  match data with JObject _ => true | _ => false end.

Fixpoint assoc_lookup (key : string) (fields : list (string * json)) : option json :=
  match fields with
  | [] => None
  | (k, v) :: rest => if String.eqb k key then Some v else assoc_lookup key rest
  end.

(** ** Exceptions and the script's monad *)

Inductive exn : Type :=
  | KeyError (key : string)        (* [ENTITIES[entity_type]] on a missing key *)
  | FileNotFoundError (path : string)
  | JSONDecodeError                (* [json.load] on text that is not JSON *)
  | AttributeError                 (* [data.get] on a value that is no dict *)
  | RequestException.              (* [requests.post] got no HTTP response *)

Inductive Outcome (A : Type) : Type :=
  | Returned (a : A)
  | Raised (e : exn).
Arguments Returned {A} a.
Arguments Raised {A} e.

(** ** What the script does to the outside: requests and console lines *)

Record Request : Type := mkRequest {
  req_method : string;
  req_url : string;
  req_headers : list (string * string);
  req_json : json
}.

(** One constructor per [print] call of the script; the arguments are the
    values its f-string interpolates. *)
Inductive Line : Type :=
  | Populating (entity_type : string)            (* "\nPopulating {entity_type}..." *)
  | FileNotFound (file_path : string)            (* "File not found: {file_path}" *)
  | Created (entity_type : string) (id : json)   (* "Successfully created {entity_type}: {id}" *)
  | Failed (entity_type : string) (id : json)    (* "Failed to create {entity_type}: {id}" *)
  | StatusCode (code : Z)                        (* "Status code: {response.status_code}" *)
  | ResponseText (body : string).                (* "Response: {response.text}" *)

Inductive Event : Type :=
  | Post (r : Request)
  | Out (l : Line).

Abbreviation Trace := (list Event).

Fixpoint posts_of (t : Trace) : list Request :=
  match t with
  | [] => []
  | Post r :: t' => r :: posts_of t'
  | Out _ :: t' => posts_of t'
  end.

Fixpoint console_of (t : Trace) : list Line :=
  match t with
  | [] => []
  | Post _ :: t' => console_of t'
  | Out l :: t' => l :: console_of t'
  end.

(** ** The world the script runs in *)

(** A regular file that can be opened and read as text, seen through
    [json.load]: either its text is not JSON, or it denotes the value
    [doc].  A path at which [open] or [json.load] fail in another way (a
    directory, no permission to read, bytes that are no text, an integer
    literal beyond the digit limit) has no counterpart here: statements
    about a whole run speak of worlds without such paths. *)
Inductive File : Type :=
  | NotJson
  | JsonText (doc : json).

(** What [requests.post] comes back with: a response object, or no
    response at all (connection refused, timeout, ...), in which case the
    call raises. *)
Record Response : Type := mkResponse {
  status_code : Z;
  text : string
}.

Inductive Reply : Type :=
  | Answer (response : Response)
  | NoAnswer.

Record World : Type := mkWorld {
  (** [None]: nothing exists at that path. *)
  files : string -> option File;
  (** The API's answer to a request, given the requests it has already
      received. *)
  api : list Request -> Request -> Reply
}.

(** A computation reads the trace so far, extends it, and returns or raises. *)
Definition Py (A : Type) : Type := Trace -> Trace * Outcome A.

Definition py_ret {A} (a : A) : Py A := fun t => (t, Returned a).

Definition py_bind {A B} (f : A -> Py B) (c : Py A) : Py B :=
  fun t =>
    match c t with
    | (t', Returned a) => f a t'
    | (t', Raised e) => (t', Raised e)
    end.

Definition raise {A} (e : exn) : Py A := fun t => (t, Raised e).

#[global] Instance Py_ret : MRet Py := @py_ret.
#[global] Instance Py_bind : MBind Py := @py_bind.

Definition print (l : Line) : Py unit := fun t => (t ++ [Out l], Returned tt).

(** ** The script *)

Definition BASE_URL : string := "http://localhost:8080/api/v1".

Definition BEARER_TOKEN : string := "<YOUR_BEARER>".

Definition HEADERS : list (string * string) :=
  [ ("Authorization", "Bearer " +:+ BEARER_TOKEN);
    ("Content-Type", "application/json") ].

Definition ENTITIES : gmap string string :=
  list_to_map
    [ ("organization", "/organizations");
      ("department", "/departments");
      ("permission", "/permissions");
      ("role", "/roles");
      ("group", "/groups");
      ("user", "/users");
      ("resource", "/resources");
      ("policy", "/policies");
      ("resourceType", "/resource-types");
      ("attributeGroup", "/attribute-groups") ].

(** [ENTITIES[entity_type]] *)
Definition ENTITIES_getitem (entity_type : string) : Py string :=
  match ENTITIES !! entity_type with
  | Some path => mret path
  | None => raise (KeyError entity_type)
  end.

(** [dict.get(key, fallback)] on the fields of a dict *)
Definition dict_get (fields : list (string * json)) (key : string) (fallback : json) : json :=
  default fallback (assoc_lookup key fields).

(** [data.get('id', 'N/A')]: only a dict has a [get] method. *)
Definition get_id (data : json) : Py json :=
  match data with
  | JObject fields => mret (dict_get fields "id" (JString "N/A"))
  | _ => raise AttributeError
  end.

Section Script.

Variable w : World.

(** [os.path.exists(file_path)] *)
Definition path_exists (file_path : string) : bool :=
  bool_decide (is_Some (files w file_path)).

Definition read_json_file (file_path : string) : Py json :=
  match files w file_path with
  | None => raise (FileNotFoundError file_path)
  | Some NotJson => raise JSONDecodeError
  | Some (JsonText doc) => mret doc
  end.

(** [requests.post(url, json=data, headers=HEADERS)]: the request goes
    out, then the API answers or the call raises. *)
Definition post_request (url : string) (data : json) : Request :=
  {| req_method := "POST"; req_url := url;
     req_headers := HEADERS; req_json := data |}.

Definition requests_post (url : string) (data : json) : Py Response :=
  fun t =>
    let r := post_request url data in
    match api w (posts_of t) r with
    | Answer response => (t ++ [Post r], Returned response)
    | NoAnswer => (t ++ [Post r], Raised RequestException)
    end.

Definition create_entity (entity_type : string) (data : json) : Py unit :=
  path ← ENTITIES_getitem entity_type;
  let url := BASE_URL +:+ path in
  response ← requests_post url data;
  if status_code response =? 201 then
    id ← get_id data;
    print (Created entity_type id)
  else
    id ← get_id data;
    print (Failed entity_type id);;
    print (StatusCode (status_code response));;
    print (ResponseText (text response)).

(** [for item in data: create_entity(entity_type, item)] *)
Fixpoint for_item (entity_type : string) (data : list json) : Py unit :=
  match data with
  | [] => mret tt
  | item :: rest =>
      create_entity entity_type item;;
      for_item entity_type rest
  end.

Definition populate_data (entity_type : string) : Py unit :=
  let file_path := "./data/" +:+ entity_type +:+ ".json" in
  if negb (path_exists file_path) then
    print (FileNotFound file_path)
  else
    data ← read_json_file file_path;
    match data with
    | JArray items => for_item entity_type items   (* [isinstance(data, list)] *)
    | _ => create_entity entity_type data
    end.

Definition creation_order : list string :=
  [ "organization"; "department"; "permission"; "role"; "group"; "user";
    "resourceType"; "attributeGroup"; "resource"; "policy" ].

(** [for entity_type in creation_order: ...] *)
Fixpoint for_entity_type (order : list string) : Py unit :=
  match order with
  | [] => mret tt
  | entity_type :: rest =>
      print (Populating entity_type);;
      populate_data entity_type;;
      for_entity_type rest
  end.

Definition main : Py unit := for_entity_type creation_order.

End Script.

(** ** Vocabulary of the statements *)

(** The path at which the driver looks for an entity type's fixture file. *)
Definition fixture_path (entity_type : string) : string :=
  "./data/" +:+ entity_type +:+ ".json".

(** The items the driver publishes for a parsed document: the elements of
    an array, or the document itself. *)
Definition items_of (doc : json) : list json :=
  match doc with
  | JArray items => items
  | _ => [doc]
  end.

(** A fixture file as the data model has it: one Record (a JSON object) or
    a sequence of Records. *)
Definition fixture (doc : json) : bool := forallb is_dict (items_of doc).

(** The request the publisher sends for one item of an entity type. *)
Definition entity_request (entity_type : string) (data : json) : Request :=
  post_request (BASE_URL +:+ ENTITIES !!! entity_type) data.

(** The id the publisher shows for a record (a value that is no object
    has no [get], and nothing is shown for it). *)
Definition shown_id (data : json) : json :=
  match data with
  | JObject fields => dict_get fields "id" (JString "N/A")
  | _ => JString "N/A"
  end.

(** The console lines for one published record, given the response. *)
Definition report (entity_type : string) (data : json) (response : Response) : list Line :=
  if status_code response =? 201 then
    [ Created entity_type (shown_id data) ]
  else
    [ Failed entity_type (shown_id data);
      StatusCode (status_code response);
      ResponseText (text response) ].

(** The API answers every request with some HTTP response. *)
Definition responsive (w : World) : Prop :=
  forall history r, api w history r <> NoAnswer.


(** The items stored for an entity type. *)
Definition stored (w : World) (entity_type : string) : list json :=
  match files w (fixture_path entity_type) with
  | Some (JsonText doc) => items_of doc
  | _ => []
  end.


(** ** Sample worlds *)

Definition one_record : json :=
  JObject [("id", JString "org-1"); ("name", JString "Acme")].

Definition two_records : json :=
  JArray [ JObject [("id", JInt 1); ("name", JString "first")];
           JObject [("name", JString "second")] ].

(** A data directory with all ten fixture files: a single organization,
    two records of every other type. *)
Definition seed_docs (entity_type : string) : json :=
  if String.eqb entity_type "organization" then one_record else two_records.

Definition seed_dir : gmap string File :=
  list_to_map
    (map (fun entity_type => (fixture_path entity_type, JsonText (seed_docs entity_type)))
         creation_order).

(** The same directory after [department.json] was cut short and only the
    first three files were written. *)
Definition broken_dir : gmap string File :=
  list_to_map
    [ (fixture_path "organization", JsonText one_record);
      (fixture_path "department", NotJson);
      (fixture_path "permission", JsonText two_records) ].

(** A mocked API that creates everything. *)
Definition api_created (history : list Request) (r : Request) : Reply :=
  Answer (mkResponse 201 "").

(** A mocked API that rejects a body without an [id]. *)
Definition api_strict (history : list Request) (r : Request) : Reply :=
  match req_json r with
  | JObject fields =>
      match assoc_lookup "id" fields with
      | Some _ => Answer (mkResponse 201 "")
      | None => Answer (mkResponse 400 "id is required")
      end
  | _ => Answer (mkResponse 400 "object expected")
  end.

Definition seeded : World := {| files := fun p => seed_dir !! p; api := api_created |}.

Definition strict : World := {| files := fun p => seed_dir !! p; api := api_strict |}.

Definition broken : World := {| files := fun p => broken_dir !! p; api := api_created |}.

Definition bare : World := {| files := fun _ => None; api := api_created |}.

(** The seed directory with nobody listening at the base URL. *)
Definition api_offline (history : list Request) (r : Request) : Reply := NoAnswer.

Definition offline : World := {| files := fun p => seed_dir !! p; api := api_offline |}.

(** ** Further vocabulary *)

(** Every answered request for a record is followed at once by the
    record's outcome lines: the success line, or the three failure lines. *)
Definition outcomes_reported (w : World) (t : Trace) : Prop :=
  forall (i : nat) r response,
    t !! i = Some (Post r) ->
    api w (posts_of (take i t)) r = Answer response ->
    is_dict (req_json r) ->
    exists entity_type,
      r = entity_request entity_type (req_json r) /\
      take (length (report entity_type (req_json r) response)) (drop (S i) t) =
      map Out (report entity_type (req_json r) response).

(** The entity types announced on the console, in order. *)
Fixpoint announced (t : Trace) : list string :=
  match t with
  | [] => []
  | Out (Populating entity_type) :: t' => entity_type :: announced t'
  | _ :: t' => announced t'
  end.

(** Every request the driver can send: for each entity type of the
    creation order, one request per stored item. *)
Definition all_requests (w : World) : list Request :=
  flat_map (fun entity_type => map (entity_request entity_type) (stored w entity_type))
           creation_order.

(** ** More sample worlds *)

Definition three_records : json :=
  JArray [ JObject [("id", JString "u-1")];
           JObject [("id", JString "u-2")];
           JObject [("id", JString "u-3")] ].

Definition number_inside : json :=
  JArray [ JObject [("id", JString "r-1")]; JInt 7; JObject [("id", JString "r-2")] ].

(** A directory with a fixture for a type the script does not know, an
    empty array, and an array holding a number. *)
Definition odd_dir : gmap string File :=
  list_to_map
    [ (fixture_path "team", JsonText one_record);
      (fixture_path "group", JsonText (JArray []));
      (fixture_path "role", JsonText number_inside);
      (fixture_path "user", JsonText three_records) ].

Definition odd : World := {| files := fun p => odd_dir !! p; api := api_created |}.

(** An API that goes away after its first answer. *)
Definition api_once (history : list Request) (r : Request) : Reply :=
  match history with
  | [] => Answer (mkResponse 201 "")
  | _ => NoAnswer
  end.

Definition flaky : World := {| files := fun p => odd_dir !! p; api := api_once |}.

(** The seed directory with two more files lying around. *)
Definition seeded_more : World :=
  {| files := fun p =>
       (<[fixture_path "team" := JsonText one_record]>
          (<["./data/README.md" := NotJson]> seed_dir)) !! p;
     api := api_created |}.

(** ** The id of a record, in the words of the statements *)

(** [shows_id data id]: [data] is a record and [id] is what stands for it
    on the console: the value of its ["id"] field (the first one, should
    the list repeat the key, which a [dict] never does), or the
    placeholder ["N/A"] when no field is named ["id"]. *)
Inductive shows_id : json -> json -> Prop :=
  | shows_id_field (before : list (string * json)) (v : json)
      (after : list (string * json)) :
      "id" ∉ before.*1 ->
      shows_id (JObject (before ++ ("id", v) :: after)) v
  | shows_id_placeholder (fields : list (string * json)) :
      "id" ∉ fields.*1 ->
      shows_id (JObject fields) (JString "N/A").

(** The ids of the records of the seed directory. *)
Definition seed_ids (entity_type : string) : list json :=
  if String.eqb entity_type "organization" then [JString "org-1"]
  else [JInt 1; JString "N/A"].


(** ** Traces *)

Lemma posts_of_app (t1 t2 : Trace) : posts_of (t1 ++ t2) = posts_of t1 ++ posts_of t2.
Proof.
  induction t1 as [|[r|l] t1 IH]; simpl; [reflexivity | f_equal; exact IH | exact IH].
Qed.

Lemma console_of_app (t1 t2 : Trace) :
  console_of (t1 ++ t2) = console_of t1 ++ console_of t2.
Proof.
  induction t1 as [|[r|l] t1 IH]; simpl; [reflexivity | exact IH | f_equal; exact IH].
Qed.

Lemma posts_of_prints (ls : list Line) : posts_of (map Out ls) = [].
Proof. induction ls; simpl; auto. Qed.

Lemma console_of_prints (ls : list Line) : console_of (map Out ls) = ls.
Proof. induction ls; simpl; congruence. Qed.

(** ** The publisher, case by case *)

Section Publisher.

Variable w : World.

Lemma bind_run {A B} (c : Py A) (f : A -> Py B) (t : Trace) :
  (c ≫= f) t =
  match c t with
  | (t', Returned a) => f a t'
  | (t', Raised e) => (t', Raised e)
  end.
Proof. reflexivity. Qed.

(** What one call of [create_entity] does, for a known entity type. *)
Lemma create_entity_cases entity_type path data t :
  ENTITIES !! entity_type = Some path ->
  let r := post_request (BASE_URL +:+ path) data in
  create_entity w entity_type data t =
  match api w (posts_of t) r with
  | NoAnswer => (t ++ [Post r], Raised RequestException)
  | Answer response =>
      if is_dict data
      then (t ++ Post r :: map Out (report entity_type data response), Returned tt)
      else (t ++ [Post r], Raised AttributeError)
  end.
Proof.
  intros Hpath r. unfold create_entity, ENTITIES_getitem. rewrite Hpath.
  rewrite bind_run. cbn [mret Py_ret py_ret]. rewrite bind_run.
  unfold requests_post. fold r.
  destruct (api w (posts_of t) r) as [response|]; [|reflexivity].
  unfold report.
  destruct data; cbn [is_dict get_id shown_id];
    destruct (status_code response =? 201); try reflexivity;
    cbv [mbind Py_bind py_bind mret Py_ret py_ret print map];
    rewrite <- ?app_assoc; reflexivity.
Qed.

End Publisher.

(** ** The loops *)

Section Loops.

Variable w : World.

Lemma for_item_cons entity_type item rest t :
  for_item w entity_type (item :: rest) t =
  match create_entity w entity_type item t with
  | (t', Returned _) => for_item w entity_type rest t'
  | (t', Raised e) => (t', Raised e)
  end.
Proof. reflexivity. Qed.

Lemma for_entity_type_cons entity_type rest t :
  for_entity_type w (entity_type :: rest) t =
  match populate_data w entity_type (t ++ [Out (Populating entity_type)]) with
  | (t', Returned _) => for_entity_type w rest t'
  | (t', Raised e) => (t', Raised e)
  end.
Proof. reflexivity. Qed.

Lemma for_entity_type_app order1 order2 t :
  for_entity_type w (order1 ++ order2) t =
  match for_entity_type w order1 t with
  | (t', Returned _) => for_entity_type w order2 t'
  | (t', Raised e) => (t', Raised e)
  end.
Proof.
  revert t. induction order1 as [|entity_type order1 IH]; intros t.
  - reflexivity.
  - rewrite <- app_comm_cons, !for_entity_type_cons.
    destruct (populate_data w entity_type _) as [t' [[]|e]]; [apply IH | reflexivity].
Qed.

(** [populate_data] by what is at the fixture path. *)
Lemma populate_data_absent entity_type t :
  files w (fixture_path entity_type) = None ->
  populate_data w entity_type t =
  (t ++ [Out (FileNotFound (fixture_path entity_type))], Returned tt).
Proof.
  intros Hfile. unfold populate_data, path_exists. fold (fixture_path entity_type).
  rewrite Hfile. rewrite bool_decide_eq_false_2; [reflexivity | apply is_Some_None].
Qed.

Lemma populate_data_not_json entity_type t :
  files w (fixture_path entity_type) = Some NotJson ->
  populate_data w entity_type t = (t, Raised JSONDecodeError).
Proof.
  intros Hfile. unfold populate_data, path_exists, read_json_file.
  fold (fixture_path entity_type).
  rewrite Hfile. rewrite bool_decide_eq_true_2; [reflexivity | eauto].
Qed.

Lemma populate_data_json entity_type doc t :
  files w (fixture_path entity_type) = Some (JsonText doc) ->
  populate_data w entity_type t =
  match doc with
  | JArray items => for_item w entity_type items t
  | _ => create_entity w entity_type doc t
  end.
Proof.
  intros Hfile. unfold populate_data, path_exists, read_json_file.
  fold (fixture_path entity_type).
  rewrite Hfile. rewrite bool_decide_eq_true_2; [destruct doc; reflexivity | eauto].
Qed.

(** A single document is published like a one-element array. *)
Lemma for_item_single entity_type data t :
  for_item w entity_type [data] t = create_entity w entity_type data t.
Proof.
  rewrite for_item_cons.
  destruct (create_entity w entity_type data t) as [t' [[]|e]]; reflexivity.
Qed.

Lemma populate_data_items entity_type doc t :
  files w (fixture_path entity_type) = Some (JsonText doc) ->
  populate_data w entity_type t = for_item w entity_type (items_of doc) t.
Proof.
  intros Hfile. rewrite (populate_data_json _ _ _ Hfile).
  destruct doc; cbn [items_of]; rewrite ?for_item_single; reflexivity.
Qed.

End Loops.

(** ** What a batch of items sends *)

Section Batches.

Variable w : World.
Variable entity_type path : string.
Hypothesis known : ENTITIES !! entity_type = Some path.

Lemma entity_request_known data :
  entity_request entity_type data = post_request (BASE_URL +:+ path) data.
Proof. unfold entity_request. by rewrite (lookup_total_correct _ _ _ known). Qed.

Lemma posts_of_published t r lines :
  posts_of (t ++ Post r :: map Out lines) = posts_of t ++ [r].
Proof. rewrite posts_of_app. simpl. by rewrite posts_of_prints. Qed.

(** One call sends exactly one request, whatever comes back. *)
Lemma create_entity_posts data t :
  posts_of (create_entity w entity_type data t).1 =
  posts_of t ++ [entity_request entity_type data].
Proof.
  rewrite (create_entity_cases w _ _ data t known), entity_request_known.
  destruct (api w _ _); [destruct (is_dict data)|]; cbn [fst];
    rewrite ?posts_of_published, ?posts_of_app; reflexivity.
Qed.

(** Whatever happens, the requests sent for a batch are a prefix of the
    batch, in its order. *)
Lemma for_item_posts_prefix items t :
  exists k,
    posts_of (for_item w entity_type items t).1 =
    posts_of t ++ map (entity_request entity_type) (take k items).
Proof.
  revert t. induction items as [|item rest IH]; intros t.
  - exists 0%nat. cbn. by rewrite app_nil_r.
  - rewrite for_item_cons.
    pose proof (create_entity_posts item t) as Hsent.
    destruct (create_entity w entity_type item t) as [t' [[]|e]]; cbn [fst] in *.
    + destruct (IH t') as [k Hk]. exists (S k).
      rewrite Hk, Hsent, <- app_assoc. reflexivity.
    + exists 1%nat. rewrite Hsent. reflexivity.
Qed.

(** With an API that answers, and records only, the whole batch is sent
    and the loop returns. *)
Lemma for_item_responsive items t :
  responsive w ->
  forallb is_dict items ->
  (for_item w entity_type items t).2 = Returned tt /\
  posts_of (for_item w entity_type items t).1 =
  posts_of t ++ map (entity_request entity_type) items.
Proof.
  intros Hresp. revert t. induction items as [|item rest IH]; intros t Hdicts.
  - cbn. by rewrite app_nil_r.
  - cbn [forallb] in Hdicts. apply andb_True in Hdicts as [Hdict Hrest].
    rewrite for_item_cons.
    pose proof (create_entity_posts item t) as Hsent.
    rewrite (create_entity_cases w _ _ item t known) in Hsent |- *.
    destruct (api w _ _) as [response|] eqn:Hreply; [|by apply Hresp in Hreply].
    apply Is_true_true in Hdict. rewrite Hdict in Hsent |- *. cbn [fst] in Hsent.
    destruct (IH (t ++ Post (post_request (BASE_URL +:+ path) item)
                    :: map Out (report entity_type item response)) Hrest)
      as [Hret Hposts].
    split; [exact Hret|]. rewrite Hposts, Hsent, <- app_assoc. reflexivity.
Qed.

(** With an API that answers 201 throughout, the trace of a batch of
    records is known exactly. *)
Lemma for_item_created items t :
  (forall history r, exists body, api w history r = Answer (mkResponse 201 body)) ->
  forallb is_dict items ->
  for_item w entity_type items t =
  (t ++ flat_map (fun data => [Post (entity_request entity_type data);
                               Out (Created entity_type (shown_id data))]) items,
   Returned tt).
Proof.
  intros Hapi. revert t. induction items as [|item rest IH]; intros t Hdicts.
  - cbn. by rewrite app_nil_r.
  - cbn [forallb] in Hdicts. apply andb_True in Hdicts as [Hdict Hrest].
    rewrite for_item_cons, (create_entity_cases w _ _ item t known).
    destruct (Hapi (posts_of t) (post_request (BASE_URL +:+ path) item)) as [body ->].
    apply Is_true_true in Hdict. rewrite Hdict.
    rewrite (IH _ Hrest). cbn [flat_map report status_code map Z.eqb Pos.eqb].
    rewrite entity_request_known, <- app_assoc. reflexivity.
Qed.

(** The path lookup never fails inside a batch. *)
Lemma for_item_no_KeyError items t key :
  (for_item w entity_type items t).2 <> Raised (KeyError key).
Proof.
  revert t. induction items as [|item rest IH]; intros t; [discriminate|].
  rewrite for_item_cons, (create_entity_cases w _ _ item t known).
  destruct (api w _ _); [destruct (is_dict item)|]; cbn; auto; discriminate.
Qed.

End Batches.

(** ** Failure reports stay attached to their request *)

Section Reports.

Variable w : World.





End Reports.

(** ** Whole batches and whole runs *)

Section Runs.

Variable w : World.

Lemma creation_order_known entity_type :
  entity_type ∈ creation_order -> is_Some (ENTITIES !! entity_type).
Proof.
  unfold creation_order. intros Hin.
  repeat (apply elem_of_cons in Hin as [->|Hin]; [by vm_compute; eauto|]).
  by apply elem_of_nil in Hin.
Qed.




(** The exact trace of a run in which every type has a fixture file and
    every request is answered 201. *)
Lemma for_entity_type_created docs order t :
  (forall entity_type, entity_type ∈ order ->
     is_Some (ENTITIES !! entity_type) /\
     files w (fixture_path entity_type) = Some (JsonText (docs entity_type)) /\
     fixture (docs entity_type)) ->
  (forall history r, exists body, api w history r = Answer (mkResponse 201 body)) ->
  for_entity_type w order t =
  (t ++ flat_map (fun entity_type =>
                    Out (Populating entity_type)
                    :: flat_map (fun data =>
                                   [Post (entity_request entity_type data);
                                    Out (Created entity_type (shown_id data))])
                                (items_of (docs entity_type)))
                 order,
   Returned tt).
Proof.
  intros Hdir Hapi. revert t. induction order as [|entity_type rest IH]; intros t.
  - cbn. by rewrite app_nil_r.
  - rewrite for_entity_type_cons.
    destruct (Hdir entity_type) as ([path known] & Hfile & Hfix); [by left|].
    rewrite (populate_data_items _ _ _ _ Hfile).
    rewrite (for_item_created w _ _ known _ _ Hapi Hfix).
    rewrite (IH (fun e He => Hdir e (list_elem_of_further _ _ _ He))).
    cbn [flat_map]. by rewrite <- !app_assoc.
Qed.

(** The path lookup never fails for the types the driver names. *)
Lemma for_entity_type_no_KeyError order t key :
  (forall entity_type, entity_type ∈ order -> is_Some (ENTITIES !! entity_type)) ->
  (for_entity_type w order t).2 <> Raised (KeyError key).
Proof.
  intros Hknown. revert t. induction order as [|entity_type rest IH]; intros t.
  - discriminate.
  - rewrite for_entity_type_cons.
    destruct (Hknown entity_type) as [path known]; [by left|].
    pose proof (for_item_no_KeyError w _ _ known) as Hitems.
    destruct (files w (fixture_path entity_type)) as [[|doc]|] eqn:Hfile.
    + rewrite (populate_data_not_json _ _ _ Hfile). discriminate.
    + rewrite (populate_data_items _ _ _ _ Hfile).
      specialize (Hitems (items_of doc) (t ++ [Out (Populating entity_type)]) key).
      destruct (for_item w entity_type _ _) as [t' [[]|e]]; [|exact Hitems].
      apply IH. intros e He. apply Hknown. by right.
    + rewrite (populate_data_absent _ _ _ Hfile).
      apply IH. intros e He. apply Hknown. by right.
Qed.

End Runs.

(** ** Batches that stop early *)

Section Stops.

Variable w : World.

Lemma for_item_app entity_type items1 items2 t :
  for_item w entity_type (items1 ++ items2) t =
  match for_item w entity_type items1 t with
  | (t', Returned _) => for_item w entity_type items2 t'
  | (t', Raised e) => (t', Raised e)
  end.
Proof.
  revert t. induction items1 as [|item rest IH]; intros t.
  - reflexivity.
  - rewrite <- app_comm_cons, !for_item_cons.
    destruct (create_entity w entity_type item t) as [t' [[]|e]]; [apply IH | reflexivity].
Qed.

(** An entity type without an endpoint: nothing is sent. *)
Lemma create_entity_unknown entity_type data t :
  ENTITIES !! entity_type = None ->
  create_entity w entity_type data t = (t, Raised (KeyError entity_type)).
Proof.
  intros Hnone. unfold create_entity, ENTITIES_getitem. rewrite Hnone. reflexivity.
Qed.

(** A batch that returns has sent every item, and every item was a record
    with an answer. *)
Lemma for_item_returned entity_type path items t :
  ENTITIES !! entity_type = Some path ->
  (for_item w entity_type items t).2 = Returned tt ->
  posts_of (for_item w entity_type items t).1 =
    posts_of t ++ map (entity_request entity_type) items /\
  forallb is_dict items.
Proof.
  intros known. revert t. induction items as [|item rest IH]; intros t Hret.
  - cbn. by rewrite app_nil_r.
  - rewrite for_item_cons in Hret |- *.
    pose proof (create_entity_posts w _ _ known item t) as Hsent.
    pose proof (create_entity_cases w _ _ item t known) as Hcases. cbn zeta in Hcases.
    destruct (create_entity w entity_type item t) as [t' [[]|e]]; [|discriminate Hret].
    destruct (IH t' Hret) as [Hposts Hdicts]. cbn [fst] in Hsent. split.
    + rewrite Hposts, Hsent, <- app_assoc. reflexivity.
    + cbn [forallb]. apply andb_True. split; [|exact Hdicts].
      destruct (api w _ _); [|discriminate Hcases].
      destruct (is_dict item); [exact I | discriminate Hcases].
Qed.

(** What a batch can end with. *)
Lemma for_item_outcome entity_type path items t :
  ENTITIES !! entity_type = Some path ->
  (for_item w entity_type items t).2 = Returned tt \/
  (for_item w entity_type items t).2 = Raised AttributeError \/
  (for_item w entity_type items t).2 = Raised RequestException.
Proof.
  intros known. revert t. induction items as [|item rest IH]; intros t; [by left|].
  rewrite for_item_cons, (create_entity_cases w _ _ item t known).
  destruct (api w _ _); [destruct (is_dict item)|]; cbn [snd]; auto.
Qed.

End Stops.

(** ** The id shown for a record *)

Lemma assoc_lookup_first key (before : list (string * json)) v after :
  key ∉ before.*1 -> assoc_lookup key (before ++ (key, v) :: after) = Some v.
Proof.
  induction before as [|[k x] before IH]; cbn [app assoc_lookup]; intros Hnot.
  - by rewrite String.eqb_refl.
  - rewrite fmap_cons in Hnot. apply not_elem_of_cons in Hnot as [Hne Hnot].
    destruct (String.eqb_spec k key); [by subst | by apply IH].
Qed.

Lemma assoc_lookup_none key (fields : list (string * json)) :
  key ∉ fields.*1 -> assoc_lookup key fields = None.
Proof.
  induction fields as [|[k x] fields IH]; cbn [assoc_lookup]; intros Hnot; [reflexivity|].
  rewrite fmap_cons in Hnot. apply not_elem_of_cons in Hnot as [Hne Hnot].
  destruct (String.eqb_spec k key); [by subst | by apply IH].
Qed.

Lemma shows_id_shown data id :
  shows_id data id -> is_dict data = true /\ shown_id data = id.
Proof.
  intros [before v after Hnot|fields Hnot]; (split; [reflexivity|]);
    unfold shown_id, dict_get.
  - by rewrite assoc_lookup_first.
  - by rewrite assoc_lookup_none.
Qed.

Lemma Forall2_shows_id_fixture (items ids : list json) :
  Forall2 shows_id items ids -> forallb is_dict items.
Proof.
  induction 1 as [|data id items ids Hid _ IH]; [exact I|].
  cbn [forallb]. apply andb_True. split; [|exact IH].
  apply shows_id_shown in Hid as [-> _]. exact I.
Qed.

(** The trace of the records of one file, with each request and each id
    spelled out. *)
Lemma created_lines entity_type path (items ids : list json) :
  ENTITIES !! entity_type = Some path ->
  Forall2 shows_id items ids ->
  flat_map (fun data => [ Post (entity_request entity_type data);
                          Out (Created entity_type (shown_id data)) ]) items =
  flat_map (fun '(data, id) =>
              [ Post {| req_method := "POST";
                        req_url := BASE_URL +:+ path;
                        req_headers := [ ("Authorization", "Bearer <YOUR_BEARER>");
                                         ("Content-Type", "application/json") ];
                        req_json := data |};
                Out (Created entity_type id) ])
           (zip items ids).
Proof.
  intros known. induction 1 as [|data id items ids Hid _ IH]; [reflexivity|].
  cbn [flat_map zip zip_with]. rewrite IH, (entity_request_known _ _ known).
  apply shows_id_shown in Hid as [_ ->]. reflexivity.
Qed.

Lemma created_trace_by_table (docs : string -> json) (ids : string -> list json)
    (table : list (string * string)) :
  Forall (fun row =>
            exists path,
              ENTITIES !! row.1 = Some path /\
              row.2 = BASE_URL +:+ path /\
              Forall2 shows_id (items_of (docs row.1)) (ids row.1)) table ->
  flat_map (fun entity_type =>
              Out (Populating entity_type)
              :: flat_map (fun data => [ Post (entity_request entity_type data);
                                         Out (Created entity_type (shown_id data)) ])
                          (items_of (docs entity_type)))
           table.*1 =
  flat_map (fun '(entity_type, url) =>
              Out (Populating entity_type)
              :: flat_map (fun '(data, id) =>
                             [ Post {| req_method := "POST";
                                       req_url := url;
                                       req_headers :=
                                         [ ("Authorization", "Bearer <YOUR_BEARER>");
                                           ("Content-Type", "application/json") ];
                                       req_json := data |};
                               Out (Created entity_type id) ])
                          (zip (items_of (docs entity_type)) (ids entity_type)))
           table.
Proof.
  induction 1 as [|[entity_type url] table (path & known & Hurl & Hids) _ IH]; [reflexivity|].
  cbn [fst snd] in *. rewrite fmap_cons. cbn [flat_map fst]. rewrite IH. subst url.
  by rewrite (created_lines _ _ _ _ known Hids).
Qed.

Lemma one_record_shows_id :
  Forall2 shows_id (items_of one_record) [JString "org-1"].
Proof.
  constructor; [|constructor].
  apply (shows_id_field [] (JString "org-1") [("name", JString "Acme")]).
  apply not_elem_of_nil.
Qed.

Lemma two_records_show_ids :
  Forall2 shows_id (items_of two_records) [JInt 1; JString "N/A"].
Proof.
  constructor; [|constructor; [|constructor]].
  - apply (shows_id_field [] (JInt 1) [("name", JString "first")]). apply not_elem_of_nil.
  - apply shows_id_placeholder. apply (bool_decide_unpack _). vm_compute. exact I.
Qed.


(** ** Sample runs *)

Example strict_users :
  populate_data strict "user" [] =
  ([ Post (post_request "http://localhost:8080/api/v1/users"
             (JObject [("id", JInt 1); ("name", JString "first")]));
     Out (Created "user" (JInt 1));
     Post (post_request "http://localhost:8080/api/v1/users"
             (JObject [("name", JString "second")]));
     Out (Failed "user" (JString "N/A"));
     Out (StatusCode 400);
     Out (ResponseText "id is required") ],
   Returned tt).
Proof. vm_compute. reflexivity. Qed.

Example strict_console_tail :
  drop 42 (console_of (main strict []).1) =
  [ Populating "policy";
    Created "policy" (JInt 1);
    Failed "policy" (JString "N/A");
    StatusCode 400;
    ResponseText "id is required" ].
Proof. vm_compute. reflexivity. Qed.

(** Nothing in the script catches what [requests.post] raises. *)
Example offline_run :
  main offline [] =
  ([ Out (Populating "organization");
     Post (post_request "http://localhost:8080/api/v1/organizations" one_record) ],
   Raised RequestException).
Proof. vm_compute. reflexivity. Qed.

(** An array element that is no object is posted, then [data.get] fails. *)
Example number_item :
  for_item seeded "role" [JInt 7; one_record] [] =
  ([ Post (post_request "http://localhost:8080/api/v1/roles" (JInt 7)) ],
   Raised AttributeError).
Proof. vm_compute. reflexivity. Qed.

Example entity_urls :
  map (fun entity_type => req_url (entity_request entity_type JNull)) creation_order =
  [ "http://localhost:8080/api/v1/organizations";
    "http://localhost:8080/api/v1/departments";
    "http://localhost:8080/api/v1/permissions";
    "http://localhost:8080/api/v1/roles";
    "http://localhost:8080/api/v1/groups";
    "http://localhost:8080/api/v1/users";
    "http://localhost:8080/api/v1/resource-types";
    "http://localhost:8080/api/v1/attribute-groups";
    "http://localhost:8080/api/v1/resources";
    "http://localhost:8080/api/v1/policies" ].
Proof. vm_compute. reflexivity. Qed.

Example unknown_entity_type :
  create_entity seeded "team" one_record [] = ([], Raised (KeyError "team")).
Proof. vm_compute. reflexivity. Qed.

Example bare_run_sends_nothing :
  posts_of (main bare []).1 = [] /\ (main bare []).2 = Returned tt.
Proof. vm_compute. split; reflexivity. Qed.

(** ** The publisher *)

(** C7. For every entity type and record, the publisher sends one HTTP POST
    whose URL is the base URL followed by the entity type's path segment,
    whose headers are the bearer-token [Authorization] header and the JSON
    [Content-Type] header, and whose JSON body is the record. *)
Theorem publisher_request_shape (w : World) (entity_type path : string) (data : json)
    (t : Trace) :
  ENTITIES !! entity_type = Some path ->
  posts_of (create_entity w entity_type data t).1 =
  posts_of t ++
  [ {| req_method := "POST";
       req_url := BASE_URL +:+ path;
       req_headers := [ ("Authorization", "Bearer " +:+ BEARER_TOKEN);
                        ("Content-Type", "application/json") ];
       req_json := data |} ].
Proof.
  intros known.
  rewrite (create_entity_posts w _ _ known), (entity_request_known _ _ known).
  reflexivity.
Qed.

Lemma publisher_request_shape_witness :
  posts_of (create_entity seeded "resourceType" one_record []).1 =
  [ {| req_method := "POST";
       req_url := "http://localhost:8080/api/v1/resource-types";
       req_headers := [ ("Authorization", "Bearer <YOUR_BEARER>");
                        ("Content-Type", "application/json") ];
       req_json := one_record |} ].
Proof.
  apply (publisher_request_shape seeded "resourceType" "/resource-types" one_record []).
  vm_compute. reflexivity.
Defined.

(** C8. For a record answered with status 201 the publisher prints the
    success line with the record's [id], that is the value of its ["id"]
    field, or with the placeholder ["N/A"] when the record has no such
    field; for any other status it prints the failure line, the numeric
    status code and the raw response body.  Either way it returns. *)
Theorem publisher_reports_outcome (w : World) (entity_type path : string)
    (fields : list (string * json)) (id : json) (response : Response) (t : Trace) :
  ENTITIES !! entity_type = Some path ->
  shows_id (JObject fields) id ->
  api w (posts_of t)
    {| req_method := "POST";
       req_url := BASE_URL +:+ path;
       req_headers := [ ("Authorization", "Bearer " +:+ BEARER_TOKEN);
                        ("Content-Type", "application/json") ];
       req_json := JObject fields |} = Answer response ->
  create_entity w entity_type (JObject fields) t =
  (t ++ Post
         {| req_method := "POST";
            req_url := BASE_URL +:+ path;
            req_headers := [ ("Authorization", "Bearer " +:+ BEARER_TOKEN);
                             ("Content-Type", "application/json") ];
            req_json := JObject fields |}
     :: (if decide (status_code response = 201)
         then [ Out (Created entity_type id) ]
         else [ Out (Failed entity_type id);
                Out (StatusCode (status_code response));
                Out (ResponseText (text response)) ]),
   Returned tt).
Proof.
  intros known Hid Hreply. apply shows_id_shown in Hid as [_ Hid].
  rewrite (create_entity_cases w _ _ _ t known). cbn zeta.
  change (post_request (BASE_URL +:+ path) (JObject fields)) with
    {| req_method := "POST";
       req_url := BASE_URL +:+ path;
       req_headers := [ ("Authorization", "Bearer " +:+ BEARER_TOKEN);
                        ("Content-Type", "application/json") ];
       req_json := JObject fields |}.
  rewrite Hreply. cbn [is_dict]. unfold report. rewrite Hid.
  destruct (decide (status_code response = 201)) as [Hcode|Hcode].
  - apply Z.eqb_eq in Hcode. by rewrite Hcode.
  - apply Z.eqb_neq in Hcode. by rewrite Hcode.
Qed.

Lemma publisher_reports_outcome_witness :
  create_entity strict "group" (JObject [("name", JString "first"); ("id", JInt 1)]) [] =
  ([ Post {| req_method := "POST";
             req_url := "http://localhost:8080/api/v1/groups";
             req_headers := [ ("Authorization", "Bearer <YOUR_BEARER>");
                              ("Content-Type", "application/json") ];
             req_json := JObject [("name", JString "first"); ("id", JInt 1)] |};
     Out (Created "group" (JInt 1)) ],
   Returned tt) /\
  create_entity strict "group" (JObject [("name", JString "second")]) [] =
  ([ Post {| req_method := "POST";
             req_url := "http://localhost:8080/api/v1/groups";
             req_headers := [ ("Authorization", "Bearer <YOUR_BEARER>");
                              ("Content-Type", "application/json") ];
             req_json := JObject [("name", JString "second")] |};
     Out (Failed "group" (JString "N/A"));
     Out (StatusCode 400);
     Out (ResponseText "id is required") ],
   Returned tt).
Proof.
  split.
  - apply (publisher_reports_outcome strict "group" "/groups"
             [("name", JString "first"); ("id", JInt 1)] (JInt 1) (mkResponse 201 "") []).
    + vm_compute. reflexivity.
    + apply (shows_id_field [("name", JString "first")] (JInt 1) []).
      apply (bool_decide_unpack _). vm_compute. exact I.
    + reflexivity.
  - apply (publisher_reports_outcome strict "group" "/groups"
             [("name", JString "second")] (JString "N/A")
             (mkResponse 400 "id is required") []).
    + vm_compute. reflexivity.
    + apply shows_id_placeholder. apply (bool_decide_unpack _). vm_compute. exact I.
    + reflexivity.
Defined.

(** ** One entity type *)

(** C4. For an entity type whose fixture file does not exist at
    ["./data/" + entity type + ".json"], [populate_data] sends no request,
    raises nothing and prints the skip notice, and the driver goes on with
    the next entity type. *)
Theorem missing_fixture_skipped (w : World) (entity_type : string) (rest : list string)
    (t : Trace) :
  files w ("./data/" +:+ entity_type +:+ ".json") = None ->
  populate_data w entity_type t =
    (t ++ [Out (FileNotFound ("./data/" +:+ entity_type +:+ ".json"))], Returned tt) /\
  posts_of (populate_data w entity_type t).1 = posts_of t /\
  for_entity_type w (entity_type :: rest) t =
    for_entity_type w rest
      (t ++ [ Out (Populating entity_type);
              Out (FileNotFound ("./data/" +:+ entity_type +:+ ".json")) ]).
Proof.
  intros Hfile. change (files w (fixture_path entity_type) = None) in Hfile.
  change ("./data/" +:+ entity_type +:+ ".json") with (fixture_path entity_type).
  rewrite for_entity_type_cons, !(populate_data_absent _ _ _ Hfile). cbn [fst].
  rewrite posts_of_app, <- app_assoc. cbn. by rewrite app_nil_r.
Qed.

Lemma missing_fixture_skipped_witness :
  populate_data bare "policy" [] =
    ([Out (FileNotFound "./data/policy.json")], Returned tt) /\
  posts_of (populate_data bare "policy" []).1 = [] /\
  for_entity_type bare ["policy"; "role"] [] =
    for_entity_type bare ["role"]
      [Out (Populating "policy"); Out (FileNotFound "./data/policy.json")].
Proof.
  apply (missing_fixture_skipped bare "policy" ["role"] []). reflexivity.
Defined.

(** C5, as the code has it.  For a fixture file that parses to an array
    of N records, provided every POST gets an HTTP response,
    [populate_data] sends exactly N requests, one per record and in the
    order of the array, each a POST of that record to the entity type's
    URL, and returns. *)
Theorem array_fixture_posts_each_record (w : World) (entity_type path : string)
    (items : list json) (t : Trace) :
  ENTITIES !! entity_type = Some path ->
  files w ("./data/" +:+ entity_type +:+ ".json") = Some (JsonText (JArray items)) ->
  forallb is_dict items ->
  responsive w ->
  (populate_data w entity_type t).2 = Returned tt /\
  posts_of (populate_data w entity_type t).1 =
    posts_of t ++
    map (fun data =>
           {| req_method := "POST";
              req_url := BASE_URL +:+ path;
              req_headers := [ ("Authorization", "Bearer " +:+ BEARER_TOKEN);
                               ("Content-Type", "application/json") ];
              req_json := data |})
        items /\
  length (posts_of (populate_data w entity_type t).1) =
    (length (posts_of t) + length items)%nat.
Proof.
  intros known Hfile Hdicts Hresp.
  rewrite (populate_data_items _ _ _ _ Hfile). cbn [items_of].
  destruct (for_item_responsive w _ _ known items t Hresp Hdicts) as [Hret Hposts].
  rewrite Hposts, length_app, length_map.
  repeat split; [exact Hret|]. f_equal. apply map_ext. intros data.
  apply (entity_request_known _ _ known).
Qed.

Lemma array_fixture_posts_each_record_witness :
  (populate_data strict "user" []).2 = Returned tt /\
  posts_of (populate_data strict "user" []).1 =
    [ {| req_method := "POST";
         req_url := "http://localhost:8080/api/v1/users";
         req_headers := [ ("Authorization", "Bearer <YOUR_BEARER>");
                          ("Content-Type", "application/json") ];
         req_json := JObject [("id", JInt 1); ("name", JString "first")] |};
      {| req_method := "POST";
         req_url := "http://localhost:8080/api/v1/users";
         req_headers := [ ("Authorization", "Bearer <YOUR_BEARER>");
                          ("Content-Type", "application/json") ];
         req_json := JObject [("name", JString "second")] |} ] /\
  length (posts_of (populate_data strict "user" []).1) = 2%nat.
Proof.
  apply (array_fixture_posts_each_record strict "user" "/users"
           [ JObject [("id", JInt 1); ("name", JString "first")];
             JObject [("name", JString "second")] ] []).
  - vm_compute. reflexivity.
  - vm_compute. reflexivity.
  - exact I.
  - intros history r. cbn. unfold api_strict.
    destruct (req_json r); try discriminate.
    destruct (assoc_lookup "id" fields); discriminate.
Defined.

(** C5, as stated, fails: [user.json] holds an array of two records, the
    first request gets no answer, [requests.post] raises, and the second
    record is never posted. *)
Lemma array_fixture_cut_short_without_answer :
  files offline ("./data/" +:+ "user" +:+ ".json") =
    Some (JsonText (JArray [ JObject [("id", JInt 1); ("name", JString "first")];
                             JObject [("name", JString "second")] ])) /\
  populate_data offline "user" [] =
    ([ Post {| req_method := "POST";
               req_url := "http://localhost:8080/api/v1/users";
               req_headers := [ ("Authorization", "Bearer <YOUR_BEARER>");
                                ("Content-Type", "application/json") ];
               req_json := JObject [("id", JInt 1); ("name", JString "first")] |} ],
     Raised RequestException) /\
  length (posts_of (populate_data offline "user" []).1) = 1%nat.
Proof. repeat split; vm_compute; reflexivity. Qed.

(** C6. For a fixture file that parses to a single JSON object,
    [populate_data] sends exactly one request: a POST to the entity type's
    URL with that object as its JSON body. *)
Theorem object_fixture_posts_once (w : World) (entity_type path : string)
    (fields : list (string * json)) (t : Trace) :
  ENTITIES !! entity_type = Some path ->
  files w ("./data/" +:+ entity_type +:+ ".json") = Some (JsonText (JObject fields)) ->
  posts_of (populate_data w entity_type t).1 =
  posts_of t ++
  [
    {| req_method := "POST";
       req_url := BASE_URL +:+ path;
       req_headers := [ ("Authorization", "Bearer " +:+ BEARER_TOKEN);
                        ("Content-Type", "application/json") ];
       req_json := JObject fields |} ].
Proof.
  intros known Hfile.
  rewrite (populate_data_json _ _ _ _ Hfile), (create_entity_posts w _ _ known).
  by rewrite (entity_request_known _ _ known).
Qed.

Lemma object_fixture_posts_once_witness :
  posts_of (populate_data seeded "organization" []).1 =
  [ {| req_method := "POST";
       req_url := "http://localhost:8080/api/v1/organizations";
       req_headers := [ ("Authorization", "Bearer <YOUR_BEARER>");
                        ("Content-Type", "application/json") ];
       req_json := JObject [("id", JString "org-1"); ("name", JString "Acme")] |} ].
Proof.
  apply (object_fixture_posts_once seeded "organization" "/organizations"
           [("id", JString "org-1"); ("name", JString "Acme")] []).
  - vm_compute. reflexivity.
  - vm_compute. reflexivity.
Defined.

Lemma map_req_json_entity_request (entity_type : string) (items : list json) :
  map req_json (map (entity_request entity_type) items) = items.
Proof. induction items as [|item rest IH]; cbn; congruence. Qed.

(** C9. The bodies sent for a fixture file are the values read from it,
    item by item and unchanged: whatever happens they are an initial
    segment of the items read, and when the file holds records and the API
    answers each request they are all of them. *)
Theorem records_sent_unchanged (w : World) (entity_type path : string) (doc : json)
    (t : Trace) :
  ENTITIES !! entity_type = Some path ->
  files w (fixture_path entity_type) = Some (JsonText doc) ->
  exists sent,
    posts_of (populate_data w entity_type t).1 = posts_of t ++ sent /\
    map req_json sent `prefix_of` items_of doc /\
    (responsive w -> fixture doc -> map req_json sent = items_of doc).
Proof.
  intros known Hfile. rewrite (populate_data_items _ _ _ _ Hfile).
  destruct (for_item_posts_prefix w _ _ known (items_of doc) t) as [k Hk].
  exists (map (entity_request entity_type) (take k (items_of doc))).
  rewrite map_req_json_entity_request. split; [exact Hk|]. split.
  - exists (drop k (items_of doc)). by rewrite take_drop.
  - intros Hresp Hfix.
    destruct (for_item_responsive w _ _ known (items_of doc) t Hresp Hfix) as [_ Hall].
    rewrite Hall in Hk. apply app_inv_head in Hk.
    rewrite <- (map_req_json_entity_request entity_type (take k (items_of doc))), <- Hk.
    apply map_req_json_entity_request.
Qed.

Lemma records_sent_unchanged_witness :
  exists sent,
    posts_of (populate_data strict "role" []).1 = sent /\
    map req_json sent =
      [ JObject [("id", JInt 1); ("name", JString "first")];
        JObject [("name", JString "second")] ].
Proof.
  destruct (records_sent_unchanged strict "role" "/roles" two_records [])
    as (sent & Hposts & _ & Hall).
  - vm_compute. reflexivity.
  - vm_compute. reflexivity.
  - exists sent. split; [exact Hposts|]. apply Hall; [|exact I].
    intros history r. cbn. unfold api_strict.
    destruct (req_json r); try discriminate.
    destruct (assoc_lookup "id" fields); discriminate.
Defined.

(** ** The driver *)

(** C10. Every entity type of the creation order is a key of [ENTITIES], so
    no run of the driver ends in a [KeyError]: the path lookup in the
    publisher succeeds for every record published. *)
Theorem creation_order_paths_known :
  Forall (fun entity_type => is_Some (ENTITIES !! entity_type)) creation_order /\
  forall (w : World) (t : Trace) (key : string),
    (main w t).2 <> Raised (KeyError key).
Proof.
  split.
  - apply Forall_forall. intros entity_type Hin. by apply creation_order_known.
  - intros w t key. apply for_entity_type_no_KeyError.
    intros entity_type Hin. by apply creation_order_known.
Qed.

(** C2, as the code has it.  When the text of an entity type's fixture file
    is not JSON, no request is sent for that type and the decode error is
    not caught: it ends the run right after the type is announced, so none
    of the later entity types is processed.  The types before it are
    processed as usual. *)
Theorem malformed_fixture_ends_run (w : World) (earlier : list string)
    (entity_type : string) (later : list string) (t t' : Trace) :
  for_entity_type w earlier t = (t', Returned tt) ->
  files w (fixture_path entity_type) = Some NotJson ->
  for_entity_type w (earlier ++ entity_type :: later) t =
  (t' ++ [Out (Populating entity_type)], Raised JSONDecodeError).
Proof.
  intros Hearlier Hfile.
  rewrite for_entity_type_app, Hearlier, for_entity_type_cons.
  by rewrite (populate_data_not_json _ _ _ Hfile).
Qed.

Lemma malformed_fixture_ends_run_witness :
  for_entity_type broken (["organization"] ++ "department" :: ["permission"; "role"]) [] =
  ([ Out (Populating "organization");
     Post (entity_request "organization" one_record);
     Out (Created "organization" (JString "org-1")) ]
   ++ [Out (Populating "department")],
   Raised JSONDecodeError).
Proof.
  apply (malformed_fixture_ends_run broken ["organization"] "department"
           ["permission"; "role"] []).
  - vm_compute. reflexivity.
  - vm_compute. reflexivity.
Defined.

(** C2, as stated, fails: [department.json] is not JSON, [permission.json]
    is a fixture file with two records, and the run ends at the department
    without ever reaching the permissions. *)
Lemma malformed_fixture_stops_later_types :
  files broken (fixture_path "department") = Some NotJson /\
  files broken (fixture_path "permission") = Some (JsonText two_records) /\
  main broken [] =
    ([ Out (Populating "organization");
       Post (entity_request "organization" one_record);
       Out (Created "organization" (JString "org-1"));
       Out (Populating "department") ],
     Raised JSONDecodeError) /\
  (Out (Populating "permission") ∉ (main broken []).1) /\
  (forall data, Post (entity_request "permission" data) ∉ (main broken []).1).
Proof.
  assert (main broken [] =
    ([ Out (Populating "organization");
       Post (entity_request "organization" one_record);
       Out (Created "organization" (JString "org-1"));
       Out (Populating "department") ],
     Raised JSONDecodeError)) as Hrun by (vm_compute; reflexivity).
  repeat split; try (vm_compute; reflexivity); try exact Hrun.
  - rewrite Hrun. cbn [fst]. intros Hin.
    repeat (apply elem_of_cons in Hin as [Heq|Hin]; [discriminate Heq|]).
    by apply elem_of_nil in Hin.
  - intros data. rewrite Hrun. cbn [fst]. intros Hin.
    repeat (apply elem_of_cons in Hin as [Heq|Hin];
            [try discriminate Heq; injection Heq as Heq; vm_compute in Heq; discriminate Heq|]).
    by apply elem_of_nil in Hin.
Qed.

(** C1. When every entity type has a fixture file of records and every
    POST is answered with status 201, a run of the driver returns, and its
    trace is, for organization, department, permission, role, group, user,
    resourceType, attributeGroup, resource and policy in this order: the
    announcement of the type, then for each record of its file, in file
    order, the POST of that record to the type's own URL and the success
    line with the record's id. *)
Theorem driver_creates_in_order (w : World) (docs : string -> json)
    (ids : string -> list json) :
  (forall entity_type, entity_type ∈ creation_order ->
     files w ("./data/" +:+ entity_type +:+ ".json") = Some (JsonText (docs entity_type)) /\
     Forall2 shows_id (items_of (docs entity_type)) (ids entity_type)) ->
  (forall history r, exists body, api w history r = Answer (mkResponse 201 body)) ->
  main w [] =
  (flat_map (fun '(entity_type, url) =>
               Out (Populating entity_type)
               :: flat_map (fun '(data, id) =>
                              [ Post {| req_method := "POST";
                                        req_url := url;
                                        req_headers :=
                                          [ ("Authorization", "Bearer <YOUR_BEARER>");
                                            ("Content-Type", "application/json") ];
                                        req_json := data |};
                                Out (Created entity_type id) ])
                           (zip (items_of (docs entity_type)) (ids entity_type)))
            [ ("organization", "http://localhost:8080/api/v1/organizations");
              ("department", "http://localhost:8080/api/v1/departments");
              ("permission", "http://localhost:8080/api/v1/permissions");
              ("role", "http://localhost:8080/api/v1/roles");
              ("group", "http://localhost:8080/api/v1/groups");
              ("user", "http://localhost:8080/api/v1/users");
              ("resourceType", "http://localhost:8080/api/v1/resource-types");
              ("attributeGroup", "http://localhost:8080/api/v1/attribute-groups");
              ("resource", "http://localhost:8080/api/v1/resources");
              ("policy", "http://localhost:8080/api/v1/policies") ],
   Returned tt).
Proof.
  intros Hdir Hapi. unfold main.
  rewrite (for_entity_type_created w docs creation_order []); [| | exact Hapi].
  - cbn [app]. f_equal.
    match goal with
    | |- _ = flat_map _ ?table =>
        change creation_order with (table.*1);
        apply (created_trace_by_table docs ids table)
    end.
    repeat (apply Forall_cons; split;
            [eexists; split; [vm_compute; reflexivity|]; split; [reflexivity|];
             apply Hdir, (bool_decide_unpack _); vm_compute; exact I|]).
    constructor.
  - intros entity_type Hin. destruct (Hdir entity_type Hin) as [Hfile Hids].
    split; [by apply creation_order_known|]. split; [exact Hfile|].
    by apply (Forall2_shows_id_fixture _ (ids entity_type)).
Qed.

Lemma driver_creates_in_order_witness :
  main seeded [] =
  (flat_map (fun '(entity_type, url) =>
               Out (Populating entity_type)
               :: flat_map (fun '(data, id) =>
                              [ Post {| req_method := "POST";
                                        req_url := url;
                                        req_headers :=
                                          [ ("Authorization", "Bearer <YOUR_BEARER>");
                                            ("Content-Type", "application/json") ];
                                        req_json := data |};
                                Out (Created entity_type id) ])
                           (zip (items_of (seed_docs entity_type)) (seed_ids entity_type)))
            [ ("organization", "http://localhost:8080/api/v1/organizations");
              ("department", "http://localhost:8080/api/v1/departments");
              ("permission", "http://localhost:8080/api/v1/permissions");
              ("role", "http://localhost:8080/api/v1/roles");
              ("group", "http://localhost:8080/api/v1/groups");
              ("user", "http://localhost:8080/api/v1/users");
              ("resourceType", "http://localhost:8080/api/v1/resource-types");
              ("attributeGroup", "http://localhost:8080/api/v1/attribute-groups");
              ("resource", "http://localhost:8080/api/v1/resources");
              ("policy", "http://localhost:8080/api/v1/policies") ],
   Returned tt).
Proof.
  apply (driver_creates_in_order seeded seed_docs seed_ids).
  - intros entity_type Hin. unfold creation_order in Hin.
    repeat (apply elem_of_cons in Hin as [->|Hin];
            [split; [vm_compute; reflexivity
                    | first [apply one_record_shows_id | apply two_records_show_ids]]|]).
    by apply elem_of_nil in Hin.
  - intros history r. exists "". reflexivity.
Defined.




(** ** Error and edge behaviour of a batch *)

(** X1. Nothing catches what [requests.post] raises.  When an item's
    request gets no answer, that request is the last thing the run does:
    the exception leaves [populate_data] and the driver loop, so neither
    the remaining items of the file nor the later entity types are
    processed. *)
Theorem unanswered_request_ends_run (w : World) (entity_type path : string) (doc : json)
    (done : list json) (item : json) (rest : list json) (later : list string)
    (t t' : Trace) :
  ENTITIES !! entity_type = Some path ->
  files w (fixture_path entity_type) = Some (JsonText doc) ->
  items_of doc = done ++ item :: rest ->
  for_item w entity_type done (t ++ [Out (Populating entity_type)]) = (t', Returned tt) ->
  api w (posts_of t') (post_request (BASE_URL +:+ path) item) = NoAnswer ->
  for_entity_type w (entity_type :: later) t =
  (t' ++ [Post (post_request (BASE_URL +:+ path) item)], Raised RequestException).
Proof.
  intros known Hfile Hitems Hdone Hreply.
  rewrite for_entity_type_cons, (populate_data_items _ _ _ _ Hfile), Hitems.
  rewrite for_item_app, Hdone, for_item_cons.
  rewrite (create_entity_cases w _ _ item t' known). cbn zeta. by rewrite Hreply.
Qed.

Lemma unanswered_request_ends_run_witness :
  for_entity_type flaky ["user"; "role"] [] =
  ([ Out (Populating "user");
     Post (post_request "http://localhost:8080/api/v1/users" (JObject [("id", JString "u-1")]));
     Out (Created "user" (JString "u-1")) ]
   ++ [Post (post_request (BASE_URL +:+ "/users") (JObject [("id", JString "u-2")]))],
   Raised RequestException).
Proof.
  apply (unanswered_request_ends_run flaky "user" "/users" three_records
           [JObject [("id", JString "u-1")]] (JObject [("id", JString "u-2")])
           [JObject [("id", JString "u-3")]] ["role"] []).
  - vm_compute. reflexivity.
  - vm_compute. reflexivity.
  - reflexivity.
  - vm_compute. reflexivity.
  - reflexivity.
Defined.

(** X2. An item that is no JSON object is posted all the same; once the
    API has answered, [data.get] raises [AttributeError] before any line
    about the item is printed, and the run ends there. *)
Theorem non_object_item_ends_run (w : World) (entity_type path : string) (doc : json)
    (done : list json) (item : json) (rest : list json) (later : list string)
    (response : Response) (t t' : Trace) :
  ENTITIES !! entity_type = Some path ->
  files w (fixture_path entity_type) = Some (JsonText doc) ->
  items_of doc = done ++ item :: rest ->
  is_dict item = false ->
  for_item w entity_type done (t ++ [Out (Populating entity_type)]) = (t', Returned tt) ->
  api w (posts_of t') (post_request (BASE_URL +:+ path) item) = Answer response ->
  for_entity_type w (entity_type :: later) t =
  (t' ++ [Post (post_request (BASE_URL +:+ path) item)], Raised AttributeError).
Proof.
  intros known Hfile Hitems Hitem Hdone Hreply.
  rewrite for_entity_type_cons, (populate_data_items _ _ _ _ Hfile), Hitems.
  rewrite for_item_app, Hdone, for_item_cons.
  rewrite (create_entity_cases w _ _ item t' known). cbn zeta. by rewrite Hreply, Hitem.
Qed.

Lemma non_object_item_ends_run_witness :
  for_entity_type odd ["role"; "user"] [] =
  ([ Out (Populating "role");
     Post (post_request "http://localhost:8080/api/v1/roles" (JObject [("id", JString "r-1")]));
     Out (Created "role" (JString "r-1")) ]
   ++ [Post (post_request (BASE_URL +:+ "/roles") (JInt 7))],
   Raised AttributeError).
Proof.
  apply (non_object_item_ends_run odd "role" "/roles" number_inside
           [JObject [("id", JString "r-1")]] (JInt 7)
           [JObject [("id", JString "r-2")]] ["user"] (mkResponse 201 "") []).
  - vm_compute. reflexivity.
  - vm_compute. reflexivity.
  - reflexivity.
  - reflexivity.
  - vm_compute. reflexivity.
  - reflexivity.
Defined.

(** X3. For an entity type that is no key of [ENTITIES], a fixture file
    with at least one item makes [populate_data] raise [KeyError] for that
    type before anything is sent or printed. *)
Theorem unknown_type_raises_before_sending (w : World) (entity_type : string) (doc : json)
    (t : Trace) :
  ENTITIES !! entity_type = None ->
  files w (fixture_path entity_type) = Some (JsonText doc) ->
  items_of doc <> [] ->
  populate_data w entity_type t = (t, Raised (KeyError entity_type)).
Proof.
  intros Hnone Hfile Hitems. rewrite (populate_data_items _ _ _ _ Hfile).
  destruct (items_of doc) as [|item rest]; [done|].
  by rewrite for_item_cons, create_entity_unknown.
Qed.

Lemma unknown_type_raises_before_sending_witness :
  populate_data odd "team" [] = ([], Raised (KeyError "team")).
Proof.
  apply (unknown_type_raises_before_sending odd "team" one_record []).
  - vm_compute. reflexivity.
  - vm_compute. reflexivity.
  - discriminate.
Defined.

Lemma for_item_cons_not_silent (w : World) (entity_type : string) (item : json)
    (rest : list json) (t : Trace) :
  for_item w entity_type (item :: rest) t <> (t, Returned tt).
Proof.
  intros Hsilent.
  destruct (ENTITIES !! entity_type) as [path|] eqn:known.
  - destruct (for_item_returned w _ _ (item :: rest) t known) as [Hposts _].
    + by rewrite Hsilent.
    + rewrite Hsilent in Hposts. cbn [fst] in Hposts.
      apply (f_equal length) in Hposts. rewrite length_app in Hposts. cbn in Hposts. lia.
  - rewrite for_item_cons, create_entity_unknown in Hsilent by done. discriminate.
Qed.

(** X4. [populate_data] returns without sending or printing anything
    exactly when the fixture file holds the empty array, for a known
    entity type or not. *)
Theorem silent_exactly_on_empty_array (w : World) (entity_type : string) (t : Trace) :
  populate_data w entity_type t = (t, Returned tt) <->
  files w (fixture_path entity_type) = Some (JsonText (JArray [])).
Proof.
  split.
  - intros Hsilent.
    destruct (files w (fixture_path entity_type)) as [[|doc]|] eqn:Hfile.
    + rewrite (populate_data_not_json _ _ _ Hfile) in Hsilent. discriminate.
    + rewrite (populate_data_items _ _ _ _ Hfile) in Hsilent.
      destruct doc as [| | | | |[|item rest]|]; cbn [items_of] in Hsilent;
        try reflexivity; by apply for_item_cons_not_silent in Hsilent.
    + rewrite (populate_data_absent _ _ _ Hfile) in Hsilent.
      injection Hsilent as Hgrown. apply (f_equal length) in Hgrown.
      rewrite length_app in Hgrown. cbn in Hgrown. lia.
  - intros Hfile. by rewrite (populate_data_items _ _ _ _ Hfile).
Qed.


(** ** Whole runs, in any world *)

Section AnyRun.

Variable w : World.

Lemma stored_absent entity_type :
  files w (fixture_path entity_type) = None -> stored w entity_type = [].
Proof. unfold stored. by intros ->. Qed.

Lemma stored_not_json entity_type :
  files w (fixture_path entity_type) = Some NotJson -> stored w entity_type = [].
Proof. unfold stored. by intros ->. Qed.

Lemma stored_json entity_type doc :
  files w (fixture_path entity_type) = Some (JsonText doc) ->
  stored w entity_type = items_of doc.
Proof. unfold stored. by intros ->. Qed.

Lemma for_entity_type_outcome order t :
  (forall entity_type, entity_type ∈ order -> is_Some (ENTITIES !! entity_type)) ->
  (for_entity_type w order t).2 = Returned tt \/
  (for_entity_type w order t).2 = Raised JSONDecodeError \/
  (for_entity_type w order t).2 = Raised AttributeError \/
  (for_entity_type w order t).2 = Raised RequestException.
Proof.
  intros Hknown. revert t. induction order as [|entity_type rest IH]; intros t; [by left|].
  rewrite for_entity_type_cons.
  destruct (Hknown entity_type) as [path known]; [by left|].
  assert (forall e, e ∈ rest -> is_Some (ENTITIES !! e)) as Hrest
    by (intros e He; apply Hknown; by right).
  destruct (files w (fixture_path entity_type)) as [[|doc]|] eqn:Hfile.
  - rewrite (populate_data_not_json _ _ _ Hfile). auto.
  - rewrite (populate_data_items _ _ _ _ Hfile).
    pose proof (for_item_outcome w _ _ (items_of doc)
                  (t ++ [Out (Populating entity_type)]) known) as Hbatch.
    destruct (for_item w entity_type _ _) as [t' [[]|e]]; [by apply IH|].
    cbn [snd] in *. destruct Hbatch as [Habs|[->| ->]]; [discriminate Habs|auto|auto].
  - rewrite (populate_data_absent _ _ _ Hfile). by apply IH.
Qed.


Lemma for_entity_type_posts_prefix order t :
  (forall entity_type, entity_type ∈ order -> is_Some (ENTITIES !! entity_type)) ->
  exists sent,
    posts_of (for_entity_type w order t).1 = posts_of t ++ sent /\
    sent `prefix_of`
      flat_map (fun entity_type => map (entity_request entity_type) (stored w entity_type))
               order.
Proof.
  intros Hknown. revert t. induction order as [|entity_type rest IH]; intros t.
  - exists []. cbn. by rewrite app_nil_r.
  - rewrite for_entity_type_cons.
    destruct (Hknown entity_type) as [path known]; [by left|].
    assert (forall e, e ∈ rest -> is_Some (ENTITIES !! e)) as Hrest
      by (intros e He; apply Hknown; by right).
    cbn [flat_map].
    assert (posts_of (t ++ [Out (Populating entity_type)]) = posts_of t) as Hannounce
      by (rewrite posts_of_app; cbn; by rewrite app_nil_r).
    destruct (files w (fixture_path entity_type)) as [[|doc]|] eqn:Hfile.
    + rewrite (populate_data_not_json _ _ _ Hfile). exists []. cbn [fst].
      rewrite Hannounce, app_nil_r. split; [reflexivity | apply prefix_nil].
    + rewrite (stored_json _ _ Hfile), (populate_data_items _ _ _ _ Hfile).
      pose proof (for_item_returned w _ _ (items_of doc)
                    (t ++ [Out (Populating entity_type)]) known) as Hbatch.
      destruct (for_item_posts_prefix w _ _ known (items_of doc)
                  (t ++ [Out (Populating entity_type)])) as [k Hk].
      destruct (for_item w entity_type _ _) as [t' [[]|e]]; cbn [fst snd] in *.
      * destruct (Hbatch eq_refl) as [Hposts _].
        destruct (IH Hrest t') as (sent & Hsent & Hprefix).
        exists (map (entity_request entity_type) (items_of doc) ++ sent). split.
        -- by rewrite Hsent, Hposts, Hannounce, <- app_assoc.
        -- by apply prefix_app.
      * exists (map (entity_request entity_type) (take k (items_of doc))). split.
        -- by rewrite Hk, Hannounce.
        -- apply prefix_app_r.
           exists (map (entity_request entity_type) (drop k (items_of doc))).
           by rewrite <- map_app, take_drop.
    + rewrite (stored_absent _ Hfile), (populate_data_absent _ _ _ Hfile).
      destruct (IH Hrest (t ++ [Out (Populating entity_type)]
                            ++ [Out (FileNotFound (fixture_path entity_type))]))
        as (sent & Hsent & Hprefix).
      rewrite <- app_assoc. exists sent. split; [|exact Hprefix].
      rewrite Hsent, !posts_of_app. cbn [posts_of app]. by rewrite !app_nil_r.
Qed.

End AnyRun.

Section Causes.

Variable w : World.

(** A batch that raises stops right after the request of one of its
    items: one that got no answer, or one that was answered but is no
    object. *)
Lemma for_item_raised entity_type path items t e :
  ENTITIES !! entity_type = Some path ->
  (for_item w entity_type items t).2 = Raised e ->
  exists t' item,
    item ∈ items /\
    (for_item w entity_type items t).1 = t' ++ [Post (entity_request entity_type item)] /\
    match api w (posts_of t') (entity_request entity_type item) with
    | Answer _ => e = AttributeError /\ is_dict item = false
    | NoAnswer => e = RequestException
    end.
Proof.
  intros known. revert t. induction items as [|item rest IH]; intros t Hraised.
  - discriminate Hraised.
  - rewrite for_item_cons in Hraised |- *.
    pose proof (create_entity_cases w _ _ item t known) as Hcases. cbn zeta in Hcases.
    rewrite <- (entity_request_known _ _ known) in Hcases.
    destruct (create_entity w entity_type item t) as [t1 [[]|e1]].
    + destruct (IH t1 Hraised) as (t' & item' & Hin & Htrace & Hcause).
      exists t', item'. split; [by right | by split].
    + cbn [fst snd] in *. injection Hraised as ->. exists t, item. split; [by left|].
      destruct (api w (posts_of t) _) as [response|];
        [destruct (is_dict item) eqn:Hitem|]; by simplify_eq.
Qed.

Lemma for_entity_type_raised order t e :
  (forall entity_type, entity_type ∈ order -> is_Some (ENTITIES !! entity_type)) ->
  (for_entity_type w order t).2 = Raised e ->
  (e = JSONDecodeError /\
   exists t' entity_type,
     entity_type ∈ order /\
     files w (fixture_path entity_type) = Some NotJson /\
     (for_entity_type w order t).1 = t' ++ [Out (Populating entity_type)]) \/
  (exists t' entity_type item,
     entity_type ∈ order /\
     item ∈ stored w entity_type /\
     (for_entity_type w order t).1 = t' ++ [Post (entity_request entity_type item)] /\
     match api w (posts_of t') (entity_request entity_type item) with
     | Answer _ => e = AttributeError /\ is_dict item = false
     | NoAnswer => e = RequestException
     end).
Proof.
  intros Hknown. revert t. induction order as [|entity_type rest IH]; intros t Hraised.
  - discriminate Hraised.
  - rewrite for_entity_type_cons in Hraised |- *.
    destruct (Hknown entity_type) as [path known]; [by left|].
    assert (forall e', e' ∈ rest -> is_Some (ENTITIES !! e')) as Hrest
      by (intros e' He; apply Hknown; by right).
    assert (forall t1,
              (for_entity_type w rest t1).2 = Raised e ->
              (e = JSONDecodeError /\
               exists t' entity_type0,
                 entity_type0 ∈ entity_type :: rest /\
                 files w (fixture_path entity_type0) = Some NotJson /\
                 (for_entity_type w rest t1).1 = t' ++ [Out (Populating entity_type0)]) \/
              (exists t' entity_type0 item,
                 entity_type0 ∈ entity_type :: rest /\
                 item ∈ stored w entity_type0 /\
                 (for_entity_type w rest t1).1 =
                   t' ++ [Post (entity_request entity_type0 item)] /\
                 match api w (posts_of t') (entity_request entity_type0 item) with
                 | Answer _ => e = AttributeError /\ is_dict item = false
                 | NoAnswer => e = RequestException
                 end)) as Hlater.
    { intros t1 Ht1. destruct (IH Hrest t1 Ht1)
        as [(-> & t' & e0 & Hin & Hfile & Htrace)|(t' & e0 & item & Hin & Hitem & Htrace & Hc)].
      - left. split; [reflexivity|]. exists t', e0. split; [by right | by split].
      - right. exists t', e0, item. split; [by right | by repeat split]. }
    destruct (files w (fixture_path entity_type)) as [[|doc]|] eqn:Hfile.
    + rewrite (populate_data_not_json _ _ _ Hfile) in Hraised |- *.
      cbn [fst snd] in *. injection Hraised as <-. left. split; [reflexivity|].
      exists t, entity_type. split; [by left | by split].
    + rewrite (populate_data_items _ _ _ _ Hfile) in Hraised |- *.
      pose proof (for_item_raised entity_type path (items_of doc)
                    (t ++ [Out (Populating entity_type)]) e known) as Hbatch.
      destruct (for_item w entity_type _ _) as [t1 [[]|e1]]; [by apply Hlater|].
      cbn [fst snd] in *. destruct (Hbatch Hraised) as (t' & item & Hin & Htrace & Hcause).
      right. exists t', entity_type, item.
      split; [by left|]. split; [by rewrite (stored_json w _ _ Hfile) | by split].
    + rewrite (populate_data_absent _ _ _ Hfile) in Hraised |- *. by apply Hlater.
Qed.

End Causes.

(** X5. A run that is cut short stops at its cause.  When it ends in
    [JSONDecodeError], its last event is the announcement of an entity type
    whose fixture file is not JSON; in [AttributeError], the request of an
    item that is no object, which the API answered; in the request
    exception, a request that got no answer. *)
Theorem cut_short_run_stops_at_its_cause (w : World) :
  ((main w []).2 = Raised JSONDecodeError ->
   exists t' entity_type,
     (main w []).1 = t' ++ [Out (Populating entity_type)] /\
     entity_type ∈ creation_order /\
     files w ("./data/" +:+ entity_type +:+ ".json") = Some NotJson) /\
  ((main w []).2 = Raised AttributeError ->
   exists t' r response,
     (main w []).1 = t' ++ [Post r] /\
     is_dict (req_json r) = false /\
     api w (posts_of t') r = Answer response) /\
  ((main w []).2 = Raised RequestException ->
   exists t' r,
     (main w []).1 = t' ++ [Post r] /\
     api w (posts_of t') r = NoAnswer).
Proof.
  pose proof (fun e => for_entity_type_raised w creation_order [] e
                         (fun entity_type Hin => creation_order_known entity_type Hin))
    as Hcause.
  unfold main.
  repeat split; intros Hraised;
    destruct (Hcause _ Hraised)
      as [(Heq & t' & e0 & Hin & Hfile & Htrace)|(t' & e0 & item & Hin & Hitem & Htrace & Hc)].
  - by exists t', e0.
  - destruct (api w _ _); [by destruct Hc | discriminate Hc].
  - discriminate Heq.
  - exists t', (entity_request e0 item).
    destruct (api w _ _) as [response|]; [|discriminate Hc].
    exists response. by destruct Hc.
  - discriminate Heq.
  - exists t', (entity_request e0 item).
    destruct (api w _ _); [by destruct Hc | done].
Qed.

Lemma cut_short_run_stops_at_its_cause_witness :
  (exists t' entity_type,
     (main broken []).1 = t' ++ [Out (Populating entity_type)] /\
     entity_type ∈ creation_order /\
     files broken ("./data/" +:+ entity_type +:+ ".json") = Some NotJson) /\
  (exists t' r response,
     (main odd []).1 = t' ++ [Post r] /\
     is_dict (req_json r) = false /\
     api odd (posts_of t') r = Answer response) /\
  (exists t' r,
     (main offline []).1 = t' ++ [Post r] /\
     api offline (posts_of t') r = NoAnswer).
Proof.
  split; [|split].
  - apply (proj1 (cut_short_run_stops_at_its_cause broken)). vm_compute. reflexivity.
  - apply (proj1 (proj2 (cut_short_run_stops_at_its_cause odd))). vm_compute. reflexivity.
  - apply (proj2 (proj2 (cut_short_run_stops_at_its_cause offline))). vm_compute. reflexivity.
Defined.



(** X7. Whatever is on disk and whatever the API does, the requests of a
    run are an initial segment of the full sequence of requests: none is
    sent twice, out of order, or for anything but a stored item. *)
Theorem requests_are_initial_segment (w : World) :
  posts_of (main w []).1 `prefix_of` all_requests w.
Proof.
  destruct (for_entity_type_posts_prefix w creation_order [])
    as (sent & Hsent & Hprefix).
  - intros entity_type Hin. by apply creation_order_known.
  - unfold main. rewrite Hsent. exact Hprefix.
Qed.

(** X8. Every request of a run is a POST with the script's two headers to
    the endpoint of one of the ten entity types, and its body is an item
    stored in that type's fixture file. *)
Theorem every_request_posts_a_stored_item (w : World) (r : Request) :
  r ∈ posts_of (main w []).1 ->
  exists entity_type data,
    entity_type ∈ creation_order /\
    data ∈ stored w entity_type /\
    r = {| req_method := "POST";
           req_url := BASE_URL +:+ ENTITIES !!! entity_type;
           req_headers := [ ("Authorization", "Bearer " +:+ BEARER_TOKEN);
                            ("Content-Type", "application/json") ];
           req_json := data |}.
Proof.
  intros Hin.
  destruct (for_entity_type_posts_prefix w creation_order [])
    as (sent & Hsent & [more Hall]).
  - intros entity_type He. by apply creation_order_known.
  - unfold main in Hin. rewrite Hsent in Hin. cbn [posts_of app] in Hin.
    assert (In r (flat_map (fun entity_type =>
                    map (entity_request entity_type) (stored w entity_type))
                  creation_order)) as Hr.
    { rewrite Hall. apply list_elem_of_In, elem_of_app. by left. }
    apply in_flat_map in Hr as (entity_type & He & Hr).
    apply in_map_iff in Hr as (data & <- & Hdata).
    exists entity_type, data. by rewrite !list_elem_of_In.
Qed.

Lemma every_request_posts_a_stored_item_witness :
  exists entity_type data,
    entity_type ∈ creation_order /\
    data ∈ stored flaky entity_type /\
    post_request "http://localhost:8080/api/v1/roles" (JInt 7) =
      {| req_method := "POST";
         req_url := BASE_URL +:+ ENTITIES !!! entity_type;
         req_headers := [ ("Authorization", "Bearer " +:+ BEARER_TOKEN);
                          ("Content-Type", "application/json") ];
         req_json := data |}.
Proof.
  apply (every_request_posts_a_stored_item flaky).
  vm_compute. right. left.
Defined.

Lemma for_entity_type_nothing_stored (w : World) (order : list string) (t : Trace) :
  (forall entity_type, entity_type ∈ order ->
     files w (fixture_path entity_type) = None) ->
  for_entity_type w order t =
  (t ++ flat_map (fun entity_type =>
                    [ Out (Populating entity_type);
                      Out (FileNotFound (fixture_path entity_type)) ])
                 order,
   Returned tt).
Proof.
  revert t. induction order as [|entity_type rest IH]; intros t Hnone.
  - cbn. by rewrite app_nil_r.
  - rewrite for_entity_type_cons, (populate_data_absent w _ _ (Hnone _ (list_elem_of_here _ _))).
    rewrite IH by (intros e He; apply Hnone; by right).
    cbn [flat_map]. by rewrite <- !app_assoc.
Qed.

(** X9. In a data directory without any of the ten fixture files the run
    sends nothing, returns, and prints for each entity type its
    announcement and its skip notice, in the creation order. *)
Theorem empty_directory_run (w : World) :
  (forall entity_type, entity_type ∈ creation_order ->
     files w ("./data/" +:+ entity_type +:+ ".json") = None) ->
  main w [] =
  (flat_map (fun entity_type =>
               [ Out (Populating entity_type);
                 Out (FileNotFound ("./data/" +:+ entity_type +:+ ".json")) ])
            [ "organization"; "department"; "permission"; "role"; "group"; "user";
              "resourceType"; "attributeGroup"; "resource"; "policy" ],
   Returned tt).
Proof.
  intros Hnone. apply (for_entity_type_nothing_stored w creation_order []). exact Hnone.
Qed.

Lemma empty_directory_run_witness :
  main bare [] =
  (flat_map (fun entity_type =>
               [ Out (Populating entity_type);
                 Out (FileNotFound ("./data/" +:+ entity_type +:+ ".json")) ])
            [ "organization"; "department"; "permission"; "role"; "group"; "user";
              "resourceType"; "attributeGroup"; "resource"; "policy" ],
   Returned tt).
Proof.
  apply (empty_directory_run bare). intros entity_type Hin. reflexivity.
Defined.


(** ** Invariants of a run *)

Section Invariants.

Variable w : World.

(** A property of the trace kept by every call of the publisher is kept
    by a batch. *)
Lemma for_item_invariant (P : Trace -> Prop) entity_type items t :
  (forall t' data, P t' -> P (create_entity w entity_type data t').1) ->
  P t -> P (for_item w entity_type items t).1.
Proof.
  intros Hstep. revert t. induction items as [|item rest IH]; intros t Ht; [exact Ht|].
  rewrite for_item_cons. specialize (Hstep t item Ht).
  destruct (create_entity w entity_type item t) as [t' [[]|e]]; [by apply IH | exact Hstep].
Qed.

(** A property of the trace kept by every line printed and by every call
    of the publisher is kept by the driver loop. *)
Lemma for_entity_type_invariant (P : Trace -> Prop) order t :
  (forall t' l, P t' -> P (t' ++ [Out l])) ->
  (forall entity_type t' data, P t' -> P (create_entity w entity_type data t').1) ->
  P t -> P (for_entity_type w order t).1.
Proof.
  intros Hline Hstep. revert t. induction order as [|entity_type rest IH]; intros t Ht.
  - exact Ht.
  - rewrite for_entity_type_cons.
    assert (P (populate_data w entity_type (t ++ [Out (Populating entity_type)])).1) as Hbatch.
    { destruct (files w (fixture_path entity_type)) as [[|doc]|] eqn:Hfile.
      - rewrite (populate_data_not_json _ _ _ Hfile). by apply Hline.
      - rewrite (populate_data_items _ _ _ _ Hfile).
        apply for_item_invariant; [apply Hstep | by apply Hline].
      - rewrite (populate_data_absent _ _ _ Hfile). by apply Hline, Hline. }
    destruct (populate_data w entity_type _) as [t' [[]|e]]; [by apply IH | exact Hbatch].
Qed.

Lemma outcomes_reported_nil : outcomes_reported w [].
Proof. intros i r response Hi. destruct i; discriminate. Qed.

Lemma outcomes_reported_old t chunk i r response :
  outcomes_reported w t ->
  t !! i = Some (Post r) ->
  api w (posts_of (take i (t ++ chunk))) r = Answer response ->
  is_dict (req_json r) ->
  exists entity_type,
    r = entity_request entity_type (req_json r) /\
    take (length (report entity_type (req_json r) response)) (drop (S i) (t ++ chunk)) =
    map Out (report entity_type (req_json r) response).
Proof.
  intros Hold Hi Hreply Hdict. pose proof (lookup_lt_Some _ _ _ Hi) as Hlt.
  rewrite take_app_le in Hreply by lia.
  destruct (Hold i r response Hi Hreply Hdict) as (entity_type & Hr & Hlines).
  exists entity_type. split; [exact Hr|].
  rewrite drop_app_le by lia. rewrite take_app_le; [exact Hlines|].
  apply (f_equal length) in Hlines. rewrite length_take, length_map in Hlines. lia.
Qed.

Lemma outcomes_reported_print t l :
  outcomes_reported w t -> outcomes_reported w (t ++ [Out l]).
Proof.
  intros Hold i r response Hi Hreply Hdict.
  apply lookup_app_Some in Hi as [Hi|[_ Hi]].
  - by apply outcomes_reported_old.
  - destruct (i - length t)%nat as [|[|j]]; discriminate.
Qed.

Lemma outcomes_reported_create_entity entity_type data t :
  outcomes_reported w t -> outcomes_reported w (create_entity w entity_type data t).1.
Proof.
  intros Hold. destruct (ENTITIES !! entity_type) as [path|] eqn:known;
    [|by rewrite create_entity_unknown].
  rewrite (create_entity_cases w _ _ data t known). cbn zeta.
  rewrite <- (entity_request_known _ _ known).
  destruct (api w (posts_of t) _) as [response|] eqn:Hanswer;
    [destruct (is_dict data) eqn:Hdata|]; cbn [fst];
    intros i r response' Hi Hreply Hdict;
    (apply lookup_app_Some in Hi as [Hi|[Hlen Hi]]; [by apply outcomes_reported_old|]);
    (destruct (i - length t)%nat as [|j] eqn:Hj;
       [|cbn in Hi; try (by destruct j);
         change (map Out ?ls) with (Out <$> ls) in Hi;
         apply list_lookup_fmap_Some in Hi as (l & Habs & _); discriminate]);
    assert (i = length t) as -> by lia; injection Hi as <-;
    rewrite take_app_length, Hanswer in Hreply.
  - injection Hreply as <-. exists entity_type. split; [reflexivity|].
    rewrite drop_app_ge by lia. replace (S (length t) - length t)%nat with 1%nat by lia.
    cbn [drop]. apply take_ge. by rewrite length_map.
  - cbn in Hdict. by rewrite Hdata in Hdict.
  - discriminate Hreply.
Qed.

Lemma announced_app (t1 t2 : Trace) : announced (t1 ++ t2) = announced t1 ++ announced t2.
Proof.
  induction t1 as [|[r|[]] t1 IH]; cbn; rewrite ?IH; reflexivity.
Qed.

Lemma announced_create_entity entity_type data t :
  announced (create_entity w entity_type data t).1 = announced t.
Proof.
  destruct (ENTITIES !! entity_type) as [path|] eqn:known;
    [|by rewrite create_entity_unknown].
  rewrite (create_entity_cases w _ _ data t known). cbn zeta.
  destruct (api w (posts_of t) _) as [response|];
    [destruct (is_dict data)|]; cbn [fst]; rewrite announced_app; unfold report;
    try destruct (status_code response =? 201); cbn; by rewrite app_nil_r.
Qed.

Lemma announced_populate_data entity_type t :
  announced (populate_data w entity_type t).1 = announced t.
Proof.
  destruct (files w (fixture_path entity_type)) as [[|doc]|] eqn:Hfile.
  - by rewrite (populate_data_not_json _ _ _ Hfile).
  - rewrite (populate_data_items _ _ _ _ Hfile).
    apply (for_item_invariant (fun t' => announced t' = announced t)); [|reflexivity].
    intros t' data <-. apply announced_create_entity.
  - rewrite (populate_data_absent _ _ _ Hfile). cbn [fst].
    rewrite announced_app. cbn. by rewrite app_nil_r.
Qed.

Lemma announced_for_entity_type order t :
  exists k,
    announced (for_entity_type w order t).1 = announced t ++ take k order /\
    ((for_entity_type w order t).2 = Returned tt -> take k order = order).
Proof.
  revert t. induction order as [|entity_type rest IH]; intros t.
  - exists 0%nat. cbn. by rewrite app_nil_r.
  - rewrite for_entity_type_cons.
    pose proof (announced_populate_data entity_type
                  (t ++ [Out (Populating entity_type)])) as Hbatch.
    rewrite announced_app in Hbatch. cbn in Hbatch.
    destruct (populate_data w entity_type _) as [t' [[]|e]]; cbn [fst snd] in *.
    + destruct (IH t') as [k [Hk Hall]]. exists (S k). cbn [take]. split.
      * by rewrite Hk, Hbatch, <- app_assoc.
      * intros Hret. by rewrite (Hall Hret).
    + exists 1%nat. cbn [take]. split; [by rewrite Hbatch, take_0 | discriminate].
Qed.

Lemma create_entity_same_api (w' : World) entity_type data t :
  (forall history r, api w history r = api w' history r) ->
  create_entity w entity_type data t = create_entity w' entity_type data t.
Proof.
  intros Hapi. unfold create_entity, ENTITIES_getitem.
  destruct (ENTITIES !! entity_type) as [path|]; [|reflexivity].
  rewrite !bind_run. cbn [mret Py_ret py_ret]. rewrite !bind_run.
  unfold requests_post. by rewrite Hapi.
Qed.

Lemma for_item_same_api (w' : World) entity_type items t :
  (forall history r, api w history r = api w' history r) ->
  for_item w entity_type items t = for_item w' entity_type items t.
Proof.
  intros Hapi. revert t. induction items as [|item rest IH]; intros t; [reflexivity|].
  rewrite !for_item_cons, (create_entity_same_api w' _ _ _ Hapi).
  destruct (create_entity w' entity_type item t) as [t' [[]|e]]; [apply IH | reflexivity].
Qed.

Lemma populate_data_same_inputs (w' : World) entity_type t :
  (forall history r, api w history r = api w' history r) ->
  files w (fixture_path entity_type) = files w' (fixture_path entity_type) ->
  populate_data w entity_type t = populate_data w' entity_type t.
Proof.
  intros Hapi Hfiles.
  destruct (files w' (fixture_path entity_type)) as [[|doc]|] eqn:Hfile.
  - by rewrite (populate_data_not_json w _ _ Hfiles), (populate_data_not_json w' _ _ Hfile).
  - rewrite (populate_data_items w _ _ _ Hfiles), (populate_data_items w' _ _ _ Hfile).
    by apply for_item_same_api.
  - by rewrite (populate_data_absent w _ _ Hfiles), (populate_data_absent w' _ _ Hfile).
Qed.

Lemma for_entity_type_same_inputs (w' : World) order t :
  (forall history r, api w history r = api w' history r) ->
  (forall entity_type, entity_type ∈ order ->
     files w (fixture_path entity_type) = files w' (fixture_path entity_type)) ->
  for_entity_type w order t = for_entity_type w' order t.
Proof.
  intros Hapi. revert t. induction order as [|entity_type rest IH]; intros t Hfiles.
  - reflexivity.
  - rewrite !for_entity_type_cons.
    rewrite (populate_data_same_inputs w' _ _ Hapi (Hfiles _ (list_elem_of_here _ _))).
    destruct (populate_data w' entity_type _) as [t' [[]|e]]; [|reflexivity].
    apply IH. intros e He. apply Hfiles. by right.
Qed.

End Invariants.

(** X10. A run reads nothing but the ten fixture paths: two worlds with
    the same API that agree on what is at ["./data/" + entity type +
    ".json"] for the ten entity types of the creation order give the same
    run, whatever else their directories hold. *)
Theorem run_reads_only_fixture_paths (w w' : World) (t : Trace) :
  (forall history r, api w history r = api w' history r) ->
  (forall entity_type, entity_type ∈ creation_order ->
     files w ("./data/" +:+ entity_type +:+ ".json") =
     files w' ("./data/" +:+ entity_type +:+ ".json")) ->
  main w t = main w' t.
Proof.
  intros Hapi Hfiles. by apply for_entity_type_same_inputs.
Qed.

Lemma run_reads_only_fixture_paths_witness : main seeded [] = main seeded_more [].
Proof.
  apply (run_reads_only_fixture_paths seeded seeded_more []).
  - reflexivity.
  - intros entity_type Hin. unfold creation_order in Hin.
    repeat (apply elem_of_cons in Hin as [->|Hin]; [vm_compute; reflexivity|]).
    by apply elem_of_nil in Hin.
Defined.

(** X11. In every run, also one that is cut short later, each answered
    request for a record is followed at once by that record's outcome
    lines: the success line after a 201, the failure line with status code
    and response text after anything else. *)
Theorem outcomes_always_reported (w : World) : outcomes_reported w (main w []).1.
Proof.
  apply (for_entity_type_invariant w (outcomes_reported w)).
  - intros t l. apply outcomes_reported_print.
  - intros entity_type t data. apply outcomes_reported_create_entity.
  - apply outcomes_reported_nil.
Qed.

(** X12. The entity types announced by a run are an initial segment of
    the creation order, and the whole creation order when the run
    returns: no type is announced twice or out of turn. *)
Theorem announcements_follow_creation_order (w : World) :
  announced (main w []).1 `prefix_of`
    [ "organization"; "department"; "permission"; "role"; "group"; "user";
      "resourceType"; "attributeGroup"; "resource"; "policy" ] /\
  ((main w []).2 = Returned tt ->
   announced (main w []).1 =
     [ "organization"; "department"; "permission"; "role"; "group"; "user";
       "resourceType"; "attributeGroup"; "resource"; "policy" ]).
Proof.
  destruct (announced_for_entity_type w creation_order []) as [k [Hk Hall]].
  unfold main. rewrite Hk. cbn [announced app]. split.
  - exists (drop k creation_order). by rewrite take_drop.
  - exact Hall.
Qed.

(** X13. The two tables of the script agree: the creation order lists
    each key of [ENTITIES] exactly once, and no two entity types share an
    endpoint. *)
Theorem creation_order_enumerates_entities :
  (forall entity_type, is_Some (ENTITIES !! entity_type) <-> entity_type ∈ creation_order) /\
  NoDup creation_order /\
  (forall entity_type entity_type' path,
     ENTITIES !! entity_type = Some path ->
     ENTITIES !! entity_type' = Some path ->
     entity_type = entity_type').
Proof.
  assert (forall entity_type path,
            ENTITIES !! entity_type = Some path ->
            (entity_type, path) ∈
              [ ("organization", "/organizations"); ("department", "/departments");
                ("permission", "/permissions"); ("role", "/roles");
                ("group", "/groups"); ("user", "/users");
                ("resource", "/resources"); ("policy", "/policies");
                ("resourceType", "/resource-types");
                ("attributeGroup", "/attribute-groups") ]) as Hrows.
  { intros entity_type path Hpath. apply elem_of_list_to_map in Hpath; [exact Hpath|].
    apply (bool_decide_unpack _). vm_compute. exact I. }
  split; [|split].
  - intros entity_type. split; [|apply creation_order_known].
    intros [path Hpath]. apply Hrows in Hpath.
    repeat (apply elem_of_cons in Hpath as [Heq|Hpath];
            [simplify_eq; apply (bool_decide_unpack _); vm_compute; exact I|]).
    by apply elem_of_nil in Hpath.
  - apply (bool_decide_unpack _). vm_compute. exact I.
  - intros entity_type entity_type' path H1 H2. apply Hrows in H1, H2.
    repeat (apply elem_of_cons in H1 as [Heq1|H1];
            [simplify_eq;
             repeat (apply elem_of_cons in H2 as [Heq2|H2]; [by simplify_eq|]);
             by apply elem_of_nil in H2|]).
    by apply elem_of_nil in H1.
Qed.

Lemma silent_exactly_on_empty_array_witness :
  populate_data odd "group" [] = ([], Returned tt).
Proof.
  apply (proj2 (silent_exactly_on_empty_array odd "group" [])).
  vm_compute. reflexivity.
Defined.
